(** * The instruction-table generator (main.py)

    The script loads [cpu_instruction.csv] with pandas, walks the rows of the
    frame in order and prints one line of Rust source per row.  This file
    embeds the Python values the script handles, the two pandas operations
    it calls on a loaded frame ([DataFrame.iterrows] and [Series.get]), the
    formatted string and [print], and the script itself as a computation
    over an explicit world (files, standard streams). *)

From Stdlib Require Import String Ascii List ZArith Lia Bool DecimalString Permutation.
Import ListNotations.
Open Scope string_scope.

(** ** Characters the template and the output need *)

Definition LF : ascii := "010"%char.
Definition DQUOTE : ascii := "034"%char.
Definition nl : string := String LF EmptyString.
Definition dq : string := String DQUOTE EmptyString.

(** ** Python values

    A cell of a row is a Python object.  The script only ever converts a
    value to text (a replacement field of an f-string with no format spec is
    [format(v, '')], that is [str(v)] for every class below), so a float is
    carried by the text [repr] gives for it ([nan] for a missing cell);
    floating-point arithmetic plays no part. *)

Inductive pyobj : Type :=
| PyNone
| PyStr (s : string)
| PyInt (z : Z)
| PyBool (b : bool)
| PyFloat (repr : string).

Definition str_of_int (z : Z) : string := NilZero.string_of_int (Z.to_int z).

Definition py_str (v : pyobj) : string :=
  match v with
  | PyNone => "None"
  | PyStr s => s
  | PyInt z => str_of_int z
  | PyBool true => "True"
  | PyBool false => "False"
  | PyFloat repr => repr
  end.

(** ** pandas: Series and DataFrame *)

(** A row as [iterrows] hands it out: the column labels and the values. *)
Record Series : Type := mkSeries { index : list string; data : list pyobj }.

(** [Index.get_loc]: the position of a label, [None] for a [KeyError]. *)
Fixpoint get_loc (idx : list string) (key : string) : option nat :=
  match idx with
  | [] => None
  | k :: rest =>
      if String.eqb k key then Some 0
      else option_map S (get_loc rest key)
  end.

(** [s[key]]: the value under a label; [None] stands for the [KeyError]
    (or [IndexError]) that [Series.get] catches. *)
Definition getitem (s : Series) (key : string) : option pyobj :=
  match get_loc (index s) key with
  | Some i => nth_error (data s) i
  | None => None
  end.

(** [Series.get(key, default)]: [s[key]], the default when that raises. *)
Definition Series_get_default (s : Series) (key : string) (default : pyobj) : pyobj :=
  match getitem s key with
  | Some v => v
  | None => default
  end.

(** [r.get(key)]: the default of [default] is Python's [None]. *)
Definition Series_get (s : Series) (key : string) : pyobj :=
  Series_get_default s key PyNone.

(** A loaded table: the column labels and the rows, in file order.  A cell
    is the value the row carries when [iterrows] hands the row out. *)
Record DataFrame : Type := mkFrame { columns : list string; values : list (list pyobj) }.

(** [df.iterrows()]: the pairs (row label, row), rows numbered from 0 by the
    default index, each row indexed by the frame's columns. *)
Definition iterrows (df : DataFrame) : list (nat * Series) :=
  combine (seq 0 (length (values df))) (map (mkSeries (columns df)) (values df)).

(** ** The formatted line (line 10 of main.py) *)

Definition template (name operation addressingMode cycle : string) : string :=
  "Instruction::new(" ++ dq ++ name ++ dq ++ ".to_string(),Some(Cpu::" ++ operation
    ++ "),Some(Cpu::" ++ addressingMode ++ ")," ++ cycle ++ "),".

(** The f-string applied to the four looked-up values. *)
Definition fstring (name operation addressingMode cycle : pyobj) : string :=
  template (py_str name) (py_str operation) (py_str addressingMode) (py_str cycle).

(** The body of the loop up to the text handed to [print] (lines 6-10). *)
Definition line_of (r : Series) : string :=
  let name := Series_get r "name" in
  let operation := Series_get r "operation" in
  let addressingMode := Series_get r "addressingMode" in
  let cycle := Series_get r "cycles" in
  fstring name operation addressingMode cycle.

(** ** The world the script runs in *)

(** What the file system holds under a path. *)
Inductive file_state : Type :=
| Absent
| Unreadable
| Content (text : string).

(** The exceptions a load can end in. *)
Inductive exn : Type :=
| FileNotFoundError
| PermissionError
| EmptyDataError
| ParserError
| UnicodeDecodeError
| OtherError (class : string).

(** The file system, the paths opened for reading so far, and the text
    written so far to each of the two standard streams. *)
Record world : Type := mkWorld {
  files : string -> file_state;
  opened : list string;
  stdout : string;
  stderr : string
}.

(** A statement: it changes the world and either raises or returns. *)
Definition M (A : Type) : Type := world -> world * (exn + A).

Definition ret {A : Type} (a : A) : M A := fun w => (w, inr a).

Definition bind {A B : Type} (c : M A) (k : A -> M B) : M B :=
  fun w =>
    match c w with
    | (w', inl e) => (w', inl e)
    | (w', inr a) => k a w'
    end.

Notation "x <- c ;; k" := (bind c (fun x => k))
  (at level 61, c at next level, right associativity).

(** [print(text)]: the text and a newline, appended to standard output. *)
Definition print (text : string) : M unit :=
  fun w =>
    (mkWorld (files w) (opened w) (stdout w ++ text ++ nl) (stderr w), inr tt).

(** [for x in xs: body(x)]: the first exception ends the loop. *)
Fixpoint for_each {A : Type} (xs : list A) (body : A -> M unit) : M unit :=
  match xs with
  | [] => ret tt
  | x :: rest => _ <- body x ;; for_each rest body
  end.

(** How a run of the script ends: it falls off the end of the file, or an
    exception nobody caught reaches the interpreter. *)
Inductive outcome : Type :=
| Finished
| Uncaught (e : exn).

Definition input_path : string := "cpu_instruction.csv".

(** Lines 5-10: the loop over the rows. *)
Definition emit (df : DataFrame) : M unit :=
  for_each (iterrows df) (fun '(_, r) => print (line_of r)).

(** A fresh process: nothing opened, nothing written. *)
Definition boot (fs : string -> file_state) : world :=
  mkWorld fs [] EmptyString EmptyString.

Section Script.

(** pandas is not part of the repository: its reader enters as the
    function from what the file system holds under the path to the frame
    it returns or the exception it raises. *)
Variable read_csv : file_state -> exn + DataFrame.

(** [pd.read_csv(path)]: one read of the file, nothing else touched. *)
Definition pd_read_csv (path : string) : M DataFrame :=
  fun w =>
    (mkWorld (files w) (opened w ++ [path]) (stdout w) (stderr w),
     read_csv (files w path)).

(** main.py. *)
Definition main : M unit :=
  df <- pd_read_csv input_path ;;
  emit df.

(** A run of the script in a fresh process: what standard output
    received, and how the run ended.  What the interpreter does with an
    uncaught exception afterwards is not part of the script. *)
Definition run (fs : string -> file_state) : string * outcome :=
  match main (boot fs) with
  | (w, inl e) => (stdout w, Uncaught e)
  | (w, inr _) => (stdout w, Finished)
  end.

End Script.

(** ** Text into lines *)

(** The lines of a text, each without its newline; a last line needs no
    newline after it. *)
Fixpoint lines (s : string) : list string :=
  match s with
  | EmptyString => []
  | String c rest =>
      if Ascii.eqb c LF then EmptyString :: lines rest
      else match lines rest with
           | [] => [String c EmptyString]
           | l :: ls => String c l :: ls
           end
  end.

(** The pieces of a text between occurrences of a separator
    ([str.split(sep)]): one piece more than there are separators. *)
Fixpoint split_on (sep : ascii) (s : string) : list string :=
  match s with
  | EmptyString => [EmptyString]
  | String c rest =>
      if Ascii.eqb c sep then EmptyString :: split_on sep rest
      else match split_on sep rest with
           | [] => [String c EmptyString]
           | p :: ps => String c p :: ps
           end
  end.

(** A text with no newline in it. *)
Fixpoint one_line (s : string) : bool :=
  match s with
  | EmptyString => true
  | String c rest => negb (Ascii.eqb c LF) && one_line rest
  end.

(** ** A reader for plain files

    The reader pandas supplies is large; the part of it written out here
    covers plain files only, where its documented behaviour leaves no
    choice: lines ended by a newline, cells separated by commas, no quoting,
    every row as wide as the header, labels that are distinct words, and
    every column either made of decimal numerals (read as integers) or made
    of words (read as text).  Words that pandas reads as a missing value, a
    truth value or an infinity are left out.  On any other content the
    function answers [None]: the file is outside what is written out. *)

Definition is_digit (c : ascii) : bool :=
  let n := nat_of_ascii c in (48 <=? n)%nat && (n <=? 57)%nat.

Definition is_upper (c : ascii) : bool :=
  let n := nat_of_ascii c in (65 <=? n)%nat && (n <=? 90)%nat.

Definition is_lower (c : ascii) : bool :=
  let n := nat_of_ascii c in (97 <=? n)%nat && (n <=? 122)%nat.

Definition is_word_start (c : ascii) : bool :=
  is_upper c || is_lower c || Ascii.eqb c "_"%char.

Definition is_word_char (c : ascii) : bool := is_word_start c || is_digit c.

Definition to_lower (c : ascii) : ascii :=
  if is_upper c then ascii_of_nat (nat_of_ascii c + 32) else c.

Fixpoint string_forall (p : ascii -> bool) (s : string) : bool :=
  match s with
  | EmptyString => true
  | String c rest => p c && string_forall p rest
  end.

Fixpoint string_map (f : ascii -> ascii) (s : string) : string :=
  match s with
  | EmptyString => EmptyString
  | String c rest => String (f c) (string_map f rest)
  end.

(** Words the reader does not keep as text, compared without case. *)
Definition special_words : list string :=
  ["na"; "null"; "nan"; "none"; "true"; "false"; "inf"; "infinity"].

Definition is_word (s : string) : bool :=
  match s with
  | EmptyString => false
  | String c _ =>
      is_word_start c && string_forall is_word_char s
      && negb (existsb (String.eqb (string_map to_lower s)) special_words)
  end.

(** A decimal numeral short enough for a 64-bit integer. *)
Definition is_numeral (s : string) : bool :=
  (1 <=? String.length s)%nat && (String.length s <=? 18)%nat
  && string_forall is_digit s.

Fixpoint numeral_value_from (acc : Z) (s : string) : Z :=
  match s with
  | EmptyString => acc
  | String c rest =>
      numeral_value_from (10 * acc + Z.of_nat (nat_of_ascii c - 48)) rest
  end.

Definition numeral_value (s : string) : Z := numeral_value_from 0 s.

Inductive column_kind : Type := Numerals | Words.

(** The kind of a column, from all of its cells. *)
Definition infer_kind (cells : list string) : option column_kind :=
  if forallb is_numeral cells then Some Numerals
  else if forallb is_word cells then Some Words
  else None.

Definition convert_cell (k : column_kind) (cell : string) : pyobj :=
  match k with
  | Numerals => PyInt (numeral_value cell)
  | Words => PyStr cell
  end.

Definition column_cells (rows : list (list string)) (j : nat) : list string :=
  map (fun r => nth j r EmptyString) rows.

Fixpoint all_some {A : Type} (xs : list (option A)) : option (list A) :=
  match xs with
  | [] => Some []
  | None :: _ => None
  | Some x :: rest => option_map (cons x) (all_some rest)
  end.

Fixpoint distinct (xs : list string) : bool :=
  match xs with
  | [] => true
  | x :: rest => negb (existsb (String.eqb x) rest) && distinct rest
  end.

Fixpoint convert_row (kinds : list column_kind) (cells : list string) : list pyobj :=
  match kinds, cells with
  | k :: ks, c :: cs => convert_cell k c :: convert_row ks cs
  | _, _ => []
  end.

Definition COMMA : ascii := ","%char.

Definition read_csv_plain (f : file_state) : option (exn + DataFrame) :=
  match f with
  | Absent => Some (inl FileNotFoundError)
  | Unreadable => Some (inl PermissionError)
  | Content text =>
      match lines text with
      | [] => Some (inl EmptyDataError)
      | h :: body =>
          let header := split_on COMMA h in
          let rows := map (split_on COMMA) body in
          if forallb is_word header && distinct header
             && forallb (fun r => (List.length r =? List.length header)%nat) rows
          then
            match all_some (map (fun j => infer_kind (column_cells rows j))
                                (seq 0 (List.length header))) with
            | Some kinds => Some (inr (mkFrame header (map (convert_row kinds) rows)))
            | None => None
            end
          else None
      end
  end.

(** The plain reader as a reader for every file: where [read_csv_plain]
    has no answer this one raises an error of its own.  It serves the
    concrete scenarios below, all of them plain files. *)
Definition plain_reader (f : file_state) : exn + DataFrame :=
  match read_csv_plain f with
  | Some r => r
  | None => inl (OtherError "not a plain file")
  end.

(** A file system that holds the given table under the script's path and
    nothing else. *)
Definition disk (f : file_state) : string -> file_state :=
  fun path => if String.eqb path input_path then f else Absent.

(** A file system with the table under the script's path and another file
    beside it. *)
Definition disk_with_neighbour (f : file_state) : string -> file_state :=
  fun path =>
    if String.eqb path input_path then f
    else if String.eqb path "notes.txt" then Content "scratch"
    else Absent.

(** The file of the worked scenario. *)
Definition lda_csv : string :=
  "name,operation,addressingMode,cycles" ++ nl ++
  "LDA,load_accumulator,immediate,2" ++ nl.

Definition lda_frame : DataFrame :=
  mkFrame ["name"; "operation"; "addressingMode"; "cycles"]
          [[PyStr "LDA"; PyStr "load_accumulator"; PyStr "immediate"; PyInt 2]].

Definition lda_line : string :=
  "Instruction::new(" ++ dq ++ "LDA" ++ dq
  ++ ".to_string(),Some(Cpu::load_accumulator),Some(Cpu::immediate),2),".

(** The same table with the cycle count written [02]. *)
Definition lda02_csv : string :=
  "name,operation,addressingMode,cycles" ++ nl ++
  "LDA,load_accumulator,immediate,02" ++ nl.

(** The table without its [cycles] column. *)
Definition no_cycles_csv : string :=
  "name,operation,addressingMode" ++ nl ++
  "LDA,load_accumulator,immediate" ++ nl.

(** The table with its columns in another order and one column more. *)
Definition shuffled_csv : string :=
  "cycles,opcode,name,addressingMode,operation" ++ nl ++
  "2,A9,LDA,immediate,load_accumulator" ++ nl.

(** A header and no data row. *)
Definition header_only_csv : string :=
  "name,operation,addressingMode,cycles" ++ nl.

(** ** What the run prints, as a list *)

(** The rows the loop binds to [r], in the order it visits them. *)
Definition rows_of (df : DataFrame) : list Series := map snd (iterrows df).

(** The texts handed to [print], in order. *)
Definition emitted (df : DataFrame) : list string := map line_of (rows_of df).

(** Texts written one after the other, each followed by a newline. *)
Fixpoint unlines (ls : list string) : string :=
  match ls with
  | [] => EmptyString
  | l :: rest => l ++ nl ++ unlines rest
  end.

(** The four values the loop looks up in a row. *)
Definition four_values (r : Series) : pyobj * pyobj * pyobj * pyobj :=
  (Series_get r "name", Series_get r "operation",
   Series_get r "addressingMode", Series_get r "cycles").

(** A table seen through the four columns only. *)
Definition projection (df : DataFrame) : list (pyobj * pyobj * pyobj * pyobj) :=
  map four_values (rows_of df).

(** ** The line format as the specification words it

    The specification has every placeholder replaced by the text of the
    cell as the file holds it.  [verbatim_line] fills the template with the
    cells of one line of the file, found under the header labels, and
    [cells_verbatim] says that this is what a run prints for every data
    line of every file that loads. *)

Definition raw_field (header fields : list string) (key : string) : string :=
  match get_loc header key with
  | Some i => nth i fields EmptyString
  | None => EmptyString
  end.

Definition verbatim_line (header fields : list string) : string :=
  template (raw_field header fields "name") (raw_field header fields "operation")
           (raw_field header fields "addressingMode") (raw_field header fields "cycles").

Definition cells_verbatim (read_csv : file_state -> exn + DataFrame) : Prop :=
  forall text h body df,
    lines text = h :: body ->
    read_csv (Content text) = inr df ->
    forall i l,
      nth_error body i = Some l ->
      nth_error (lines (fst (run read_csv (disk (Content text))))) i
      = Some (verbatim_line (split_on COMMA h) (split_on COMMA l)).

(** ** Measures on printed text *)

(** The number of newlines in a text. *)
Fixpoint count_lf (s : string) : nat :=
  match s with
  | EmptyString => 0
  | String c rest => (if Ascii.eqb c LF then 1 else 0) + count_lf rest
  end.

(** A text in which a given character does not occur. *)
Fixpoint free_of (d : ascii) (s : string) : bool :=
  match s with
  | EmptyString => true
  | String c rest => negb (Ascii.eqb c d) && free_of d rest
  end.

Definition RPAREN : ascii := ")"%char.

(** A row whose printed values keep clear of the characters that end
    their field in the line: no double quote in the name, no closing
    parenthesis in the other three. *)
Definition delimiter_free (r : Series) : bool :=
  free_of DQUOTE (py_str (Series_get r "name"))
  && free_of RPAREN (py_str (Series_get r "operation"))
  && free_of RPAREN (py_str (Series_get r "addressingMode"))
  && free_of RPAREN (py_str (Series_get r "cycles")).

(** The newlines that the four printed values of a row hold. *)
Definition newlines_in (r : Series) : nat :=
  count_lf (py_str (Series_get r "name"))
  + count_lf (py_str (Series_get r "operation"))
  + count_lf (py_str (Series_get r "addressingMode"))
  + count_lf (py_str (Series_get r "cycles")).

(** ** The table as the reader returns it

    [read_csv] returns a table held column by column, each column of one
    type.  [iterrows] builds every row from [df.values], the cells
    brought to the one type common to all columns: where integer columns
    meet float columns and nothing else, the integers become floats; where
    anything else is mixed, every cell stays the object it is. *)

Inductive column : Type :=
| IntColumn (cells : list Z)
| FloatColumn (cells : list string)
| BoolColumn (cells : list bool)
| ObjectColumn (cells : list pyobj).

Record Table : Type := mkTable {
  labels : list string;
  nrows : nat;
  table_columns : list column
}.

Inductive dtype : Type := Int64 | Float64 | BoolType | ObjectType.

Definition dtype_of (c : column) : dtype :=
  match c with
  | IntColumn _ => Int64
  | FloatColumn _ => Float64
  | BoolColumn _ => BoolType
  | ObjectColumn _ => ObjectType
  end.

Definition dtype_eqb (a b : dtype) : bool :=
  match a, b with
  | Int64, Int64 | Float64, Float64 | BoolType, BoolType
  | ObjectType, ObjectType => true
  | _, _ => false
  end.

(** The type two types are brought to: integers and floats to floats, any
    other two different types to objects. *)
Definition join_dtype (a b : dtype) : dtype :=
  if dtype_eqb a b then a
  else match a, b with
       | Int64, Float64 | Float64, Int64 => Float64
       | _, _ => ObjectType
       end.

(** The type of [df.values]. *)
Definition find_common_type (ds : list dtype) : dtype :=
  match ds with
  | [] => ObjectType
  | d :: rest => fold_left join_dtype rest d
  end.

(** The rows of the table are rows of floats: the integer cells of the
    table, if it has any, are carried as floats. *)
Definition upcasts (t : Table) : bool :=
  dtype_eqb (find_common_type (map dtype_of (table_columns t))) Float64.

(** An integer as a float: its text gains [.0].  Written out below ten to
    the fifteenth, where the float is exact and printed without exponent. *)
Definition float_of_int (z : Z) : option pyobj :=
  if (Z.abs z <? 10 ^ 15)%Z then Some (PyFloat (str_of_int z ++ ".0")) else None.

(** The cell of a column at a row, as the column holds it. *)
Definition raw_cell (c : column) (i : nat) : option pyobj :=
  match c with
  | IntColumn zs => option_map PyInt (nth_error zs i)
  | FloatColumn rs => option_map PyFloat (nth_error rs i)
  | BoolColumn bs => option_map PyBool (nth_error bs i)
  | ObjectColumn vs => nth_error vs i
  end.

(** The cell of a column at a row, as the row carries it: [up] says that
    integers are brought to floats. *)
Definition row_cell (up : bool) (c : column) (i : nat) : option pyobj :=
  match c with
  | IntColumn zs =>
      if up then match nth_error zs i with
                 | Some z => float_of_int z
                 | None => None
                 end
      else raw_cell c i
  | _ => raw_cell c i
  end.

(** The rows [iterrows] hands out for a table: row [i] holds the cell of
    every column at [i].  [None] where a column is shorter than the table
    or an integer is too large for [float_of_int]. *)
Definition frame_of_table (t : Table) : option DataFrame :=
  option_map (mkFrame (labels t))
    (all_some
       (map (fun i => all_some (map (fun c => row_cell (upcasts t) c i)
                                    (table_columns t)))
            (seq 0 (nrows t)))).

(** The column under a label. *)
Fixpoint lookup_column (ls : list string) (cs : list column) (key : string)
  : option column :=
  match ls, cs with
  | l :: ls', c :: cs' => if String.eqb l key then Some c else lookup_column ls' cs' key
  | _, _ => None
  end.

Definition column_under (t : Table) (key : string) : option column :=
  lookup_column (labels t) (table_columns t) key.

Definition four_labels : list string :=
  ["name"; "operation"; "addressingMode"; "cycles"].

(** What a row of the table holds under a label when the loop looks it
    up: the cell of the first column with that label, the default [None]
    where there is none. *)
Definition cell_under (up : bool) (t : Table) (i : nat) (key : string) : pyobj :=
  match match column_under t key with
        | Some c => row_cell up c i
        | None => None
        end with
  | Some v => v
  | None => PyNone
  end.

(** ** The plain reader with decimal columns

    [read_table_plain] reads the plain files of [read_csv_plain] and, beside
    columns of numerals and of words, columns of decimal fractions, as
    float columns.  A decimal is taken only in the form Python prints it
    back unchanged: an integer part without a leading zero, a point, and one
    or two fraction digits, the last of them not a zero unless the
    fraction is [0]. *)

Definition POINT : ascii := "."%char.
Definition ZERO : ascii := "0"%char.

Definition is_canonical_int (s : string) : bool :=
  string_forall is_digit s
  && match s with
     | EmptyString => false
     | String c EmptyString => true
     | String c _ => negb (Ascii.eqb c ZERO)
     end.

Definition is_fraction (s : string) : bool :=
  match s with
  | String a EmptyString => is_digit a
  | String a (String b EmptyString) =>
      is_digit a && is_digit b && negb (Ascii.eqb b ZERO)
  | _ => false
  end.

Definition is_decimal (s : string) : bool :=
  match split_on POINT s with
  | [ip; fp] =>
      is_canonical_int ip && (String.length ip <=? 13)%nat && is_fraction fp
  | _ => false
  end.

(** The column that the cells of one column of the file make. *)
Definition infer_column (cells : list string) : option column :=
  match cells with
  | [] => Some (ObjectColumn [])
  | _ =>
      if forallb is_numeral cells then Some (IntColumn (map numeral_value cells))
      else if forallb is_decimal cells then Some (FloatColumn cells)
      else if forallb is_word cells then Some (ObjectColumn (map PyStr cells))
      else None
  end.

Definition read_table_plain (f : file_state) : option (exn + Table) :=
  match f with
  | Absent => Some (inl FileNotFoundError)
  | Unreadable => Some (inl PermissionError)
  | Content text =>
      match lines text with
      | [] => Some (inl EmptyDataError)
      | h :: body =>
          let header := split_on COMMA h in
          let rows := map (split_on COMMA) body in
          if forallb is_word header && distinct header
             && forallb (fun r => (List.length r =? List.length header)%nat) rows
          then
            match all_some (map (fun j => infer_column (column_cells rows j))
                                (seq 0 (List.length header))) with
            | Some cols => Some (inr (mkTable header (List.length rows) cols))
            | None => None
            end
          else None
      end
  end.

(** The reader and [iterrows]' view of its table, as a reader for every
    file; as with [plain_reader], an error of its own stands where the
    file is outside what is written out. *)
Definition typed_reader (f : file_state) : exn + DataFrame :=
  match read_table_plain f with
  | Some (inr t) =>
      match frame_of_table t with
      | Some df => inr df
      | None => inl (OtherError "not a plain file")
      end
  | Some (inl e) => inl e
  | None => inl (OtherError "not a plain file")
  end.

(** ** The plain reader with quoted cells

    A cell of a file may stand between double quotes, and then holds
    whatever is between them, commas and newlines included.  [scan] cuts a
    text into records and cells: a quote opens a cell only at its start, a
    closing quote ends the cell, and the text between the quotes holds no
    quote.  Text in any other form gets no answer. *)

Inductive cell_state : Type := AtStart | InBare | InQuoted | AfterQuote.

Definition snoc (s : string) (c : ascii) : string := s ++ String c EmptyString.

Fixpoint scan (s : string) (st : cell_state) (cell : string) (row : list string)
  : option (list (list string)) :=
  match s with
  | EmptyString =>
      match st, row with
      | InQuoted, _ => None
      | AtStart, [] => Some []
      | _, _ => Some [(row ++ [cell])%list]
      end
  | String c rest =>
      match st with
      | InQuoted =>
          if Ascii.eqb c DQUOTE then scan rest AfterQuote cell row
          else scan rest InQuoted (snoc cell c) row
      | _ =>
          if Ascii.eqb c COMMA then scan rest AtStart EmptyString (row ++ [cell])%list
          else if Ascii.eqb c LF
               then option_map (cons (row ++ [cell])%list)
                               (scan rest AtStart EmptyString [])
          else if Ascii.eqb c DQUOTE
               then match st with
                    | AtStart => scan rest InQuoted EmptyString row
                    | _ => None
                    end
          else match st with
               | AfterQuote => None
               | _ => scan rest InBare (snoc cell c) row
               end
      end
  end.

(** A word that may run over several lines. *)
Definition is_text (s : string) : bool :=
  match s with
  | EmptyString => false
  | String c _ =>
      is_word_start c
      && string_forall (fun x => is_word_char x || Ascii.eqb x LF) s
      && negb (existsb (String.eqb (string_map to_lower s)) special_words)
  end.

Definition infer_kind_quoted (cells : list string) : option column_kind :=
  if forallb is_numeral cells then Some Numerals
  else if forallb is_text cells then Some Words
  else None.

Definition read_csv_quoted (f : file_state) : option (exn + DataFrame) :=
  match f with
  | Absent => Some (inl FileNotFoundError)
  | Unreadable => Some (inl PermissionError)
  | Content text =>
      match scan text AtStart EmptyString [] with
      | None => None
      | Some [] => Some (inl EmptyDataError)
      | Some (header :: rows) =>
          if forallb is_word header && distinct header
             && forallb (fun r => (List.length r =? List.length header)%nat) rows
          then
            match all_some (map (fun j => infer_kind_quoted (column_cells rows j))
                                (seq 0 (List.length header))) with
            | Some kinds => Some (inr (mkFrame header (map (convert_row kinds) rows)))
            | None => None
            end
          else None
      end
  end.

Definition quoted_reader (f : file_state) : exn + DataFrame :=
  match read_csv_quoted f with
  | Some r => r
  | None => inl (OtherError "not a plain file")
  end.

(** ** More tables for the scenarios *)

(** Two data rows. *)
Definition two_rows_csv : string :=
  "name,operation,addressingMode,cycles" ++ nl ++
  "LDA,load_accumulator,immediate,2" ++ nl ++
  "STA,store_accumulator,absolute,4" ++ nl.

Definition two_rows_frame : DataFrame :=
  mkFrame ["name"; "operation"; "addressingMode"; "cycles"]
          [[PyStr "LDA"; PyStr "load_accumulator"; PyStr "immediate"; PyInt 2];
           [PyStr "STA"; PyStr "store_accumulator"; PyStr "absolute"; PyInt 4]].

Definition sta_line : string :=
  "Instruction::new(" ++ dq ++ "STA" ++ dq
  ++ ".to_string(),Some(Cpu::store_accumulator),Some(Cpu::absolute),4),".

(** The table of a file whose first name is a quoted cell that runs over
    two lines of the file, [LD] and [A]: the cell is loaded with the newline
    in it, and the file has two data rows. *)
Definition broken_name_frame : DataFrame :=
  mkFrame ["name"; "operation"; "addressingMode"; "cycles"]
          [[PyStr ("LD" ++ nl ++ "A"); PyStr "load_accumulator"; PyStr "immediate";
            PyInt 2];
           [PyStr "STA"; PyStr "store_accumulator"; PyStr "absolute"; PyInt 4]].

(** The file of that table. *)
Definition broken_name_csv : string :=
  "name,operation,addressingMode,cycles" ++ nl ++
  dq ++ "LD" ++ nl ++ "A" ++ dq ++ ",load_accumulator,immediate,2" ++ nl ++
  "STA,store_accumulator,absolute,4" ++ nl.

(** A table of one integer column, and the same with a float column
    beside it. *)
Definition cycles_only_csv : string := "cycles" ++ nl ++ "2" ++ nl.

Definition cycles_and_float_csv : string := "cycles,x" ++ nl ++ "2,0.5" ++ nl.

(** ** Three statements as the specification words them *)

(** Under a given reader, the lines of the output are as many as the data
    rows, for every file that loads. *)
Definition line_count_is_row_count (read_csv : file_state -> exn + DataFrame) : Prop :=
  forall fs df,
    read_csv (fs input_path) = inr df ->
    length (lines (fst (run read_csv fs))) = length (values df).

(** Under a given reader, line [i] of the output is the line of data row
    [i], for every file that loads. *)
Definition line_i_is_row_i (read_csv : file_state -> exn + DataFrame) : Prop :=
  forall fs df i vs,
    read_csv (fs input_path) = inr df ->
    nth_error (values df) i = Some vs ->
    nth_error (lines (fst (run read_csv fs))) i
    = Some (line_of (mkSeries (columns df) vs)).

(** Two plain files with as many data rows whose columns under the four
    labels are the same print the same. *)
Definition four_columns_decide : Prop :=
  forall text1 text2 t1 t2,
    read_table_plain (Content text1) = Some (inr t1) ->
    read_table_plain (Content text2) = Some (inr t2) ->
    nrows t1 = nrows t2 ->
    map (column_under t1) four_labels = map (column_under t2) four_labels ->
    run typed_reader (disk (Content text1)) = run typed_reader (disk (Content text2)).

(** * Properties *)

(** ** Python values and the plain reader on examples *)

Example str_of_int_2 : str_of_int 2 = "2".
Proof. reflexivity. Qed.

Example str_of_int_0 : str_of_int 0 = "0".
Proof. reflexivity. Qed.

Example str_of_int_neg : str_of_int (-17) = "-17".
Proof. reflexivity. Qed.

Example lines_example :
  lines ("ab" ++ nl ++ nl ++ "c") = ["ab"; EmptyString; "c"].
Proof. reflexivity. Qed.

Example split_example : split_on COMMA "a,,b," = ["a"; EmptyString; "b"; EmptyString].
Proof. reflexivity. Qed.

Example read_lda : read_csv_plain (Content lda_csv) = Some (inr lda_frame).
Proof. vm_compute. reflexivity. Qed.

Example read_header_only :
  read_csv_plain (Content header_only_csv)
  = Some (inr (mkFrame ["name"; "operation"; "addressingMode"; "cycles"] [])).
Proof. vm_compute. reflexivity. Qed.

Example read_empty_file :
  run plain_reader (disk (Content EmptyString)) = (EmptyString, Uncaught EmptyDataError).
Proof. vm_compute. reflexivity. Qed.

Example read_unreadable_file :
  run plain_reader (disk Unreadable) = (EmptyString, Uncaught PermissionError).
Proof. vm_compute. reflexivity. Qed.

Example read_quoted_is_not_plain :
  read_csv_plain (Content ("name" ++ nl ++ dq ++ "LDA" ++ dq ++ nl)) = None.
Proof. vm_compute. reflexivity. Qed.

Example read_missing_word_is_not_plain :
  read_csv_plain (Content ("name" ++ nl ++ "NaN" ++ nl)) = None.
Proof. vm_compute. reflexivity. Qed.

(** The reader written out for decimals loads the plain scenario files as
    the plain reader does. *)
Example typed_reader_on_scenarios :
  map typed_reader
      [Content lda_csv; Content lda02_csv; Content no_cycles_csv;
       Content shuffled_csv; Content header_only_csv; Content two_rows_csv;
       Absent; Unreadable; Content EmptyString]
  = map plain_reader
        [Content lda_csv; Content lda02_csv; Content no_cycles_csv;
         Content shuffled_csv; Content header_only_csv; Content two_rows_csv;
         Absent; Unreadable; Content EmptyString].
Proof. vm_compute. reflexivity. Qed.

(** The reader for quoted cells loads the plain scenario files as the
    plain reader does, and the file with the name over two lines as a
    table of two rows. *)
Example quoted_reader_on_scenarios :
  map quoted_reader
      [Content lda_csv; Content lda02_csv; Content no_cycles_csv;
       Content shuffled_csv; Content header_only_csv; Content two_rows_csv;
       Absent; Unreadable; Content EmptyString]
  = map plain_reader
        [Content lda_csv; Content lda02_csv; Content no_cycles_csv;
         Content shuffled_csv; Content header_only_csv; Content two_rows_csv;
         Absent; Unreadable; Content EmptyString]
  /\ quoted_reader (Content broken_name_csv) = inr broken_name_frame.
Proof. split; vm_compute; reflexivity. Qed.

(** An integer column beside a float column comes out of [iterrows] as
    floats; beside a column of text it stays as it is. *)
Example integer_beside_float :
  typed_reader (Content cycles_and_float_csv)
  = inr (mkFrame ["cycles"; "x"] [[PyFloat "2.0"; PyFloat "0.5"]])
  /\ typed_reader (Content cycles_only_csv) = inr (mkFrame ["cycles"] [[PyInt 2]])
  /\ typed_reader (Content two_rows_csv) = inr two_rows_frame.
Proof. repeat split; vm_compute; reflexivity. Qed.

(** ** Strings *)

Lemma append_nil_r (s : string) : s ++ EmptyString = s.
Proof. induction s as [|c s IH]; simpl; [reflexivity | now rewrite IH]. Qed.

Lemma append_assoc (a b c : string) : (a ++ b) ++ c = a ++ (b ++ c).
Proof. induction a as [|x a IH]; simpl; [reflexivity | now rewrite IH]. Qed.

Lemma one_line_app (a b : string) :
  one_line (a ++ b) = one_line a && one_line b.
Proof.
  induction a as [|c a IH]; simpl; [reflexivity|].
  rewrite IH. now rewrite andb_assoc.
Qed.

(** A line that holds no newline is cut off at the newline after it. *)
Lemma lines_cons (l rest : string) :
  one_line l = true -> lines (l ++ nl ++ rest) = l :: lines rest.
Proof.
  change (nl ++ rest) with (String LF rest).
  induction l as [|c l IH]; simpl; intros H.
  - reflexivity.
  - apply andb_prop in H. destruct H as [Hc Hl].
    apply negb_true_iff in Hc. rewrite Hc.
    now rewrite (IH Hl).
Qed.

Lemma lines_unlines (ls : list string) :
  forallb one_line ls = true -> lines (unlines ls) = ls.
Proof.
  induction ls as [|l ls IH]; intros H.
  - reflexivity.
  - cbn [forallb] in H. apply andb_prop in H. destruct H as [Hl Hls].
    cbn [unlines]. rewrite (lines_cons l (unlines ls) Hl). now rewrite (IH Hls).
Qed.

Lemma unlines_app (xs ys : list string) :
  unlines (xs ++ ys) = unlines xs ++ unlines ys.
Proof.
  induction xs as [|x xs IH]; simpl; [reflexivity|].
  rewrite IH. now rewrite !append_assoc.
Qed.

(** The filled template has a newline in it only where a filler has. *)
Lemma one_line_template (n o a c : string) :
  one_line (template n o a c)
  = one_line n && one_line o && one_line a && one_line c.
Proof.
  unfold template. rewrite !one_line_app. simpl.
  rewrite !andb_true_r. now rewrite !andb_assoc.
Qed.

(** The line of a row has a newline in it only where the text of one of
    the four looked-up values has. *)
Lemma one_line_line_of (r : Series) :
  one_line (line_of r)
  = one_line (py_str (Series_get r "name"))
    && one_line (py_str (Series_get r "operation"))
    && one_line (py_str (Series_get r "addressingMode"))
    && one_line (py_str (Series_get r "cycles")).
Proof. unfold line_of, fstring. apply one_line_template. Qed.

Lemma count_lf_app (a b : string) : count_lf (a ++ b) = count_lf a + count_lf b.
Proof.
  induction a as [|c a IH]; simpl; [reflexivity|]. rewrite IH. lia.
Qed.

Lemma count_lf_template (n o a c : string) :
  count_lf (template n o a c) = count_lf n + count_lf o + count_lf a + count_lf c.
Proof.
  unfold template. rewrite !count_lf_app. simpl. lia.
Qed.

(** A text and the newline after it make as many lines as the text holds
    newlines, and one more. *)
Lemma lines_count_cons (l rest : string) :
  length (lines (l ++ nl ++ rest)) = count_lf l + 1 + length (lines rest).
Proof.
  change (nl ++ rest) with (String LF rest).
  induction l as [|c l IH]; simpl.
  - reflexivity.
  - destruct (Ascii.eqb c LF); simpl.
    + rewrite IH. lia.
    + destruct (lines (l ++ String LF rest)) as [|x xs] eqn:E.
      * simpl in IH. lia.
      * simpl in *. lia.
Qed.

Lemma lines_count_unlines (ls : list string) :
  length (lines (unlines ls)) = length ls + list_sum (map count_lf ls).
Proof.
  induction ls as [|l ls IH]; [reflexivity|].
  cbn [unlines]. rewrite lines_count_cons, IH. simpl. lia.
Qed.

(** The lines of a text that goes on after a newline are the lines up to
    that newline and the lines after it. *)
Lemma lines_app_nl (a rest : string) :
  lines (a ++ nl ++ rest) = (lines (a ++ nl) ++ lines rest)%list.
Proof.
  change (nl ++ rest) with (String LF rest).
  change (a ++ nl) with (a ++ String LF EmptyString).
  induction a as [|c a IH]; simpl.
  - reflexivity.
  - destruct (Ascii.eqb c LF).
    + now rewrite IH.
    + rewrite IH.
      assert (N : lines (a ++ String LF EmptyString) <> []).
      { intros E. apply (f_equal (@length string)) in E.
        change (String LF EmptyString) with (nl ++ EmptyString) in E.
        rewrite lines_count_cons in E. simpl in E. lia. }
      destruct (lines (a ++ String LF EmptyString)) as [|x xs];
        [contradiction | reflexivity].
Qed.

Lemma lines_unlines_app (ls : list string) (rest : string) :
  lines (unlines ls ++ rest) = (lines (unlines ls) ++ lines rest)%list.
Proof.
  induction ls as [|l ls IH]; [reflexivity|].
  cbn [unlines]. rewrite !append_assoc.
  rewrite (lines_app_nl l (unlines ls ++ rest)), (lines_app_nl l (unlines ls)).
  now rewrite IH, app_assoc.
Qed.

Lemma count_lf_line_of (r : Series) : count_lf (line_of r) = newlines_in r.
Proof. unfold line_of, fstring. apply count_lf_template. Qed.

(** ** Lookup *)

Lemma get_loc_absent (idx : list string) (key : string) :
  ~ In key idx -> get_loc idx key = None.
Proof.
  induction idx as [|k idx IH]; simpl; intros H; [reflexivity|].
  destruct (String.eqb_spec k key) as [E|E].
  - exfalso. apply H. now left.
  - rewrite IH; [reflexivity|]. intros Hin. apply H. now right.
Qed.

Lemma Series_get_absent (r : Series) (key : string) :
  ~ In key (index r) -> Series_get r key = PyNone.
Proof.
  intros H. unfold Series_get, Series_get_default, getitem.
  now rewrite (get_loc_absent _ _ H).
Qed.

(** ** The loop *)

Lemma map_snd_combine {A B : Type} (xs : list A) (ys : list B) :
  length xs = length ys -> map snd (combine xs ys) = ys.
Proof.
  revert ys. induction xs as [|x xs IH]; intros [|y ys]; simpl; intros H;
    try reflexivity; try discriminate.
  f_equal. apply IH. now injection H.
Qed.

Lemma rows_of_frame (df : DataFrame) :
  rows_of df = map (mkSeries (columns df)) (values df).
Proof.
  unfold rows_of, iterrows. apply map_snd_combine.
  now rewrite length_seq, length_map.
Qed.

Lemma emitted_length (df : DataFrame) :
  length (emitted df) = length (values df).
Proof. unfold emitted. now rewrite rows_of_frame, !length_map. Qed.

Lemma for_each_rows {K : Type} (f : Series -> string)
      (rs : list (K * Series)) (w : world) :
  for_each rs (fun '(_, r) => print (f r)) w
  = (mkWorld (files w) (opened w) (stdout w ++ unlines (map f (map snd rs)))
             (stderr w), inr tt).
Proof.
  revert w. induction rs as [|[k r] rs IH]; intros w; simpl.
  - unfold ret. rewrite append_nil_r. now destruct w.
  - unfold bind, print at 1. rewrite IH. simpl.
    now rewrite !append_assoc.
Qed.

Lemma emit_spec (df : DataFrame) (w : world) :
  emit df w
  = (mkWorld (files w) (opened w) (stdout w ++ unlines (emitted df)) (stderr w),
     inr tt).
Proof. unfold emit, emitted, rows_of. apply for_each_rows. Qed.

Section ScriptFacts.

Variable read_csv : file_state -> exn + DataFrame.

Lemma main_loaded (w : world) (df : DataFrame) :
  read_csv (files w input_path) = inr df ->
  main read_csv w
  = (mkWorld (files w) (opened w ++ [input_path])
             (stdout w ++ unlines (emitted df)) (stderr w), inr tt).
Proof.
  intros H. unfold main, bind, pd_read_csv. rewrite H.
  now rewrite emit_spec.
Qed.

Lemma main_failed (w : world) (e : exn) :
  read_csv (files w input_path) = inl e ->
  main read_csv w
  = (mkWorld (files w) (opened w ++ [input_path]) (stdout w) (stderr w), inl e).
Proof.
  intros H. unfold main, bind, pd_read_csv. now rewrite H.
Qed.

Lemma run_loaded (fs : string -> file_state) (df : DataFrame) :
  read_csv (fs input_path) = inr df ->
  run read_csv fs = (unlines (emitted df), Finished).
Proof.
  intros H. unfold run. rewrite (main_loaded (boot fs) df H). reflexivity.
Qed.

Lemma run_failed (fs : string -> file_state) (e : exn) :
  read_csv (fs input_path) = inl e ->
  run read_csv fs = (EmptyString, Uncaught e).
Proof.
  intros H. unfold run. rewrite (main_failed (boot fs) e H). reflexivity.
Qed.

End ScriptFacts.

(** ** Rows seen through their labels *)

(** The value paired with the first occurrence of a label. *)
Fixpoint assoc (cs : list string) (vs : list pyobj) (key : string) : option pyobj :=
  match cs, vs with
  | k :: cs', v :: vs' => if String.eqb k key then Some v else assoc cs' vs' key
  | _, _ => None
  end.

Lemma getitem_assoc (cs : list string) (vs : list pyobj) (key : string) :
  getitem (mkSeries cs vs) key = assoc cs vs key.
Proof.
  unfold getitem. simpl. revert vs.
  induction cs as [|k cs IH]; intros vs; simpl.
  - reflexivity.
  - destruct (String.eqb k key).
    + now destruct vs.
    + destruct vs as [|v vs]; simpl.
      * now destruct (get_loc cs key).
      * rewrite <- IH. now destruct (get_loc cs key).
Qed.

Lemma assoc_insert (cs1 cs2 : list string) (vs1 vs2 : list pyobj)
      (x : string) (v : pyobj) (key : string) :
  length vs1 = length cs1 -> key <> x ->
  assoc (cs1 ++ x :: cs2) (vs1 ++ v :: vs2) key = assoc (cs1 ++ cs2) (vs1 ++ vs2) key.
Proof.
  revert vs1. induction cs1 as [|k cs1 IH]; intros [|v1 vs1] L N; simpl in *;
    try discriminate.
  - destruct (String.eqb_spec x key) as [E|E]; [now subst|reflexivity].
  - destruct (String.eqb k key); [reflexivity|]. apply IH; [now injection L|exact N].
Qed.

Lemma assoc_some_in (cs : list string) (vs : list pyobj) (key : string) (v : pyobj) :
  assoc cs vs key = Some v -> In (key, v) (combine cs vs).
Proof.
  revert vs. induction cs as [|k cs IH]; intros [|v1 vs]; simpl; try discriminate.
  destruct (String.eqb_spec k key) as [E|E]; intros H.
  - injection H as ->. subst. now left.
  - right. now apply IH.
Qed.

Lemma in_assoc_some (cs : list string) (vs : list pyobj) (key : string) (v : pyobj) :
  NoDup cs -> In (key, v) (combine cs vs) -> assoc cs vs key = Some v.
Proof.
  revert vs. induction cs as [|k cs IH]; intros [|v1 vs] ND; simpl; try contradiction.
  inversion ND as [|? ? Hk ND']; subst.
  destruct (String.eqb_spec k key) as [E|E]; intros [H|H].
  - now injection H as _ ->.
  - subst. exfalso. apply Hk. now apply (in_combine_l _ _ _ _ H).
  - injection H as -> _. contradiction.
  - now apply IH.
Qed.

Lemma map_fst_combine {A B : Type} (xs : list A) (ys : list B) :
  length xs = length ys -> map fst (combine xs ys) = xs.
Proof.
  revert ys. induction xs as [|x xs IH]; intros [|y ys]; simpl; intros H;
    try reflexivity; try discriminate.
  f_equal. apply IH. now injection H.
Qed.

(** One more column, under a label the loop does not ask for, changes no
    looked-up value. *)
Lemma Series_get_insert (cs1 cs2 : list string) (vs1 vs2 : list pyobj)
      (x : string) (v : pyobj) (key : string) :
  length vs1 = length cs1 -> key <> x ->
  Series_get (mkSeries (cs1 ++ x :: cs2) (vs1 ++ v :: vs2)) key
  = Series_get (mkSeries (cs1 ++ cs2) (vs1 ++ vs2)) key.
Proof.
  intros L N. unfold Series_get, Series_get_default.
  now rewrite !getitem_assoc, (assoc_insert _ _ _ _ _ _ _ L N).
Qed.

(** Columns in another order, with distinct labels, change no looked-up
    value. *)
Lemma Series_get_permuted (cs cs' : list string) (vs vs' : list pyobj) (key : string) :
  NoDup cs -> length cs = length vs -> length cs' = length vs' ->
  Permutation (combine cs vs) (combine cs' vs') ->
  Series_get (mkSeries cs vs) key = Series_get (mkSeries cs' vs') key.
Proof.
  intros ND L L' P.
  assert (ND' : NoDup cs').
  { rewrite <- (map_fst_combine cs' vs' L').
    apply (Permutation_NoDup (Permutation_map fst P)).
    now rewrite (map_fst_combine cs vs L). }
  unfold Series_get, Series_get_default. rewrite !getitem_assoc.
  destruct (assoc cs vs key) as [v|] eqn:E.
  - apply assoc_some_in in E.
    now rewrite (in_assoc_some cs' vs' key v ND' (Permutation_in _ P E)).
  - destruct (assoc cs' vs' key) as [v'|] eqn:E'; [|reflexivity].
    apply assoc_some_in in E'.
    rewrite (in_assoc_some cs vs key v' ND (Permutation_in _ (Permutation_sym P) E')) in E.
    discriminate E.
Qed.

Lemma rows_have_columns (df : DataFrame) (r : Series) :
  In r (rows_of df) -> index r = columns df.
Proof.
  rewrite rows_of_frame. intros H. apply in_map_iff in H.
  destruct H as [vs [<- _]]. reflexivity.
Qed.

(** * The statements of the specification *)

(** ** C1: the shape of a line *)

(** C1, as amended.  When the table loads, standard output receives, for
    the rows in order, the text
    [Instruction::new("<name>".to_string(),Some(Cpu::<operation>),Some(Cpu::<addressingMode>),<cycles>),]
    and a newline, where each placeholder is Python's [str] of the value the
    row holds under that label: a text value as it is, with no escaping, and
    an integer as its decimal numeral. *)
Theorem line_shape (read_csv : file_state -> exn + DataFrame)
        (fs : string -> file_state) (df : DataFrame) :
  read_csv (fs input_path) = inr df ->
  fst (run read_csv fs)
  = unlines (map (fun r =>
                    "Instruction::new(" ++ dq ++ py_str (Series_get r "name") ++ dq
                    ++ ".to_string(),Some(Cpu::" ++ py_str (Series_get r "operation")
                    ++ "),Some(Cpu::" ++ py_str (Series_get r "addressingMode")
                    ++ ")," ++ py_str (Series_get r "cycles") ++ "),")
                 (map (mkSeries (columns df)) (values df)))
  /\ (forall s, py_str (PyStr s) = s)
  /\ (forall z, py_str (PyInt z) = str_of_int z).
Proof.
  intros H. rewrite (run_loaded read_csv fs df H). simpl fst.
  unfold emitted. rewrite rows_of_frame.
  split; [reflexivity | split; reflexivity].
Qed.

Lemma line_shape_witness :
  plain_reader (disk (Content lda02_csv) input_path)
  = inr (mkFrame ["name"; "operation"; "addressingMode"; "cycles"]
                 [[PyStr "LDA"; PyStr "load_accumulator"; PyStr "immediate"; PyInt 2]])
  /\ fst (run plain_reader (disk (Content lda02_csv))) = lda_line ++ nl.
Proof.
  split.
  - vm_compute. reflexivity.
  - refine (eq_trans
              (proj1 (line_shape plain_reader (disk (Content lda02_csv))
                        (mkFrame ["name"; "operation"; "addressingMode"; "cycles"]
                           [[PyStr "LDA"; PyStr "load_accumulator";
                             PyStr "immediate"; PyInt 2]]) _)) _).
    + vm_compute. reflexivity.
    + vm_compute. reflexivity.
Defined.

(** C1 as worded fails: the file cell [02] is loaded as the integer 2 and
    printed as [2], not as it stands in the file. *)
Lemma cells_not_verbatim : ~ cells_verbatim plain_reader.
Proof.
  intros H.
  assert (L : lines lda02_csv
              = ["name,operation,addressingMode,cycles";
                 "LDA,load_accumulator,immediate,02"])
    by (vm_compute; reflexivity).
  assert (R : plain_reader (Content lda02_csv) = inr lda_frame)
    by (vm_compute; reflexivity).
  specialize (H lda02_csv _ _ lda_frame L R 0 _ eq_refl).
  vm_compute in H. discriminate H.
Qed.

(** ** C2: as many lines as rows *)

(** A value with a newline in it puts one more line into the output: the
    file of two data rows whose first name stands between quotes and runs
    over two lines prints three lines, so the lines are not as many as the
    rows for every file that loads. *)
Lemma newline_in_value_adds_line : ~ line_count_is_row_count quoted_reader.
Proof.
  intros H.
  specialize (H (disk (Content broken_name_csv)) broken_name_frame eq_refl).
  vm_compute in H. discriminate H.
Qed.

(** C2.  When the table loads, the lines of standard output are as many
    as the data rows and the newlines that the printed values of the rows
    hold, taken together; where no printed line holds a newline of its own,
    they are as many as the rows.  The output is made of one newline-terminated
    text per data row and of nothing else, so that a table without data
    rows prints nothing, and the header-only file of the scenario loads as
    a table with no row and its run prints nothing. *)
Theorem one_line_per_row (read_csv : file_state -> exn + DataFrame)
        (fs : string -> file_state) (df : DataFrame) :
  read_csv (fs input_path) = inr df ->
  length (lines (fst (run read_csv fs)))
  = length (values df) + list_sum (map newlines_in (rows_of df))
  /\ (forallb one_line (emitted df) = true ->
      length (lines (fst (run read_csv fs))) = length (values df))
  /\ (exists texts, fst (run read_csv fs) = unlines texts
                    /\ length texts = length (values df))
  /\ (values df = [] -> fst (run read_csv fs) = EmptyString)
  /\ run plain_reader (disk (Content header_only_csv)) = (EmptyString, Finished).
Proof.
  intros H. rewrite (run_loaded read_csv fs df H). simpl fst.
  assert (E : length (lines (unlines (emitted df)))
              = length (values df) + list_sum (map newlines_in (rows_of df))).
  { rewrite lines_count_unlines, emitted_length. f_equal.
    unfold emitted. rewrite map_map. apply f_equal.
    apply map_ext. intros r. apply count_lf_line_of. }
  split; [exact E|split; [|split; [|split]]].
  - intros Hl. rewrite (lines_unlines _ Hl). apply emitted_length.
  - exists (emitted df). split; [reflexivity | apply emitted_length].
  - intros Hv. unfold emitted. rewrite rows_of_frame, Hv. reflexivity.
  - vm_compute. reflexivity.
Qed.

Lemma one_line_per_row_witness :
  plain_reader (disk (Content two_rows_csv) input_path) = inr two_rows_frame
  /\ length (lines (fst (run plain_reader (disk (Content two_rows_csv))))) = 2.
Proof.
  split.
  - vm_compute. reflexivity.
  - refine (eq_trans
              (proj1 (one_line_per_row plain_reader (disk (Content two_rows_csv))
                        two_rows_frame _)) _).
    + vm_compute. reflexivity.
    + vm_compute. reflexivity.
Defined.

(** ** C3: the order of the lines *)

(** A newline in a value of an earlier row moves the later rows down:
    for the file of two data rows whose first name stands between quotes and
    runs over two lines, line 1 of the output is the rest of the first
    row's text and not the line of row 1. *)
Lemma newline_shifts_later_lines : ~ line_i_is_row_i quoted_reader.
Proof.
  intros H.
  specialize (H (disk (Content broken_name_csv)) broken_name_frame 1
                [PyStr "STA"; PyStr "store_accumulator"; PyStr "absolute"; PyInt 4]
                eq_refl eq_refl).
  vm_compute in H. discriminate H.
Qed.

(** C3.  When the table loads, the text printed for the row at position
    [i] stands in the output right after the texts of the rows before it,
    in their order, and right before the texts of the rows after it.
    Where no printed value holds a newline of its own, line [i] of the
    output is the line of row [i], and there are as many lines as rows.
    In general the line of row [i], when its own values hold no newline, is
    the line of the output at [i] moved down by the newlines that the
    values of the rows before it hold. *)
Theorem lines_in_row_order (read_csv : file_state -> exn + DataFrame)
        (fs : string -> file_state) (df : DataFrame) (i : nat) (vs : list pyobj) :
  read_csv (fs input_path) = inr df ->
  nth_error (values df) i = Some vs ->
  fst (run read_csv fs)
  = unlines (map line_of (map (mkSeries (columns df)) (firstn i (values df))))
    ++ line_of (mkSeries (columns df) vs) ++ nl
    ++ unlines (map line_of (map (mkSeries (columns df)) (skipn (S i) (values df))))
  /\ (forallb one_line (emitted df) = true ->
      nth_error (lines (fst (run read_csv fs))) i
      = Some (line_of (mkSeries (columns df) vs))
      /\ length (lines (fst (run read_csv fs))) = length (values df))
  /\ (one_line (line_of (mkSeries (columns df) vs)) = true ->
      nth_error (lines (fst (run read_csv fs)))
                (i + list_sum (map newlines_in
                                   (map (mkSeries (columns df))
                                        (firstn i (values df)))))
      = Some (line_of (mkSeries (columns df) vs))).
Proof.
  intros H Hi. rewrite (run_loaded read_csv fs df H). simpl fst.
  unfold emitted. rewrite rows_of_frame.
  assert (E : unlines (map line_of (map (mkSeries (columns df)) (values df)))
              = unlines (map line_of (map (mkSeries (columns df))
                                          (firstn i (values df))))
                ++ line_of (mkSeries (columns df) vs) ++ nl
                ++ unlines (map line_of (map (mkSeries (columns df))
                                             (skipn (S i) (values df))))).
  { destruct (nth_error_split _ _ Hi) as [l1 [l2 [E L]]].
    rewrite E. subst i.
    rewrite firstn_app, Nat.sub_diag, firstn_all. simpl firstn. rewrite app_nil_r.
    replace (skipn (S (length l1)) (l1 ++ vs :: l2)%list) with l2.
    + rewrite !map_app, unlines_app. reflexivity.
    + change (l1 ++ vs :: l2)%list with (l1 ++ [vs] ++ l2)%list.
      rewrite app_assoc.
      replace (S (length l1)) with (length (l1 ++ [vs])%list)
        by (rewrite length_app; simpl; lia).
      now rewrite skipn_app, Nat.sub_diag, skipn_all. }
  split; [exact E|split].
  - intros Hl. rewrite (lines_unlines _ Hl). split.
    + rewrite nth_error_map, nth_error_map, Hi. reflexivity.
    + now rewrite !length_map.
  - intros Hl. rewrite E, lines_unlines_app, (lines_cons _ _ Hl).
    assert (L : length (lines (unlines (map line_of
                                  (map (mkSeries (columns df))
                                       (firstn i (values df))))))
                = i + list_sum (map newlines_in
                                    (map (mkSeries (columns df))
                                         (firstn i (values df))))).
    { rewrite lines_count_unlines, !length_map, length_firstn.
      assert (Hlt : i < length (values df))
        by (apply nth_error_Some; rewrite Hi; discriminate).
      rewrite Nat.min_l by lia. f_equal.
      rewrite map_map. apply f_equal.
      apply map_ext. intros r. apply count_lf_line_of. }
    rewrite <- L, nth_error_app2 by lia.
    now rewrite Nat.sub_diag.
Qed.

Lemma lines_in_row_order_witness :
  plain_reader (disk (Content two_rows_csv) input_path) = inr two_rows_frame
  /\ nth_error (lines (fst (run plain_reader (disk (Content two_rows_csv))))) 1
     = Some sta_line.
Proof.
  split.
  - vm_compute. reflexivity.
  - refine (eq_trans
              (proj1 (proj1 (proj2 (lines_in_row_order plain_reader
                                      (disk (Content two_rows_csv)) two_rows_frame 1
                                      [PyStr "STA"; PyStr "store_accumulator";
                                       PyStr "absolute"; PyInt 4] _ _)) _)) _).
    + vm_compute. reflexivity.
    + reflexivity.
    + vm_compute. reflexivity.
    + vm_compute. reflexivity.
Defined.

(** ** C4: the worked scenario *)

(** C4.  The file with the header [name,operation,addressingMode,cycles]
    and the single row [LDA,load_accumulator,immediate,2] loads as a table
    of one row, and the run on it prints the line
    [Instruction::new("LDA".to_string(),Some(Cpu::load_accumulator),Some(Cpu::immediate),2),]
    with its newline, nothing else, and ends normally. *)
Theorem lda_scenario :
  read_csv_plain (Content lda_csv) = Some (inr lda_frame)
  /\ run plain_reader (disk (Content lda_csv))
     = ("Instruction::new(" ++ dq ++ "LDA" ++ dq
        ++ ".to_string(),Some(Cpu::load_accumulator),Some(Cpu::immediate),2),"
        ++ nl, Finished)
  /\ lines (fst (run plain_reader (disk (Content lda_csv))))
     = ["Instruction::new(" ++ dq ++ "LDA" ++ dq
        ++ ".to_string(),Some(Cpu::load_accumulator),Some(Cpu::immediate),2),"].
Proof.
  split; [|split]; vm_compute; reflexivity.
Qed.

(** ** C5: an absent column is no failure *)

(** C5.  When the table loads, the run ends normally whatever columns the
    table has; a lookup under a label the table does not have yields the
    missing-value marker in every row, and the line of the row holds the
    text of the marker at the place of that field, the other fields as
    they are. *)
Theorem absent_column_absorbed (read_csv : file_state -> exn + DataFrame)
        (fs : string -> file_state) (df : DataFrame) :
  read_csv (fs input_path) = inr df ->
  run read_csv fs = (unlines (map line_of (rows_of df)), Finished)
  /\ (forall key r, In r (rows_of df) -> ~ In key (columns df) ->
        Series_get r key = PyNone)
  /\ (forall r, In r (rows_of df) ->
        (~ In "name" (columns df) ->
           line_of r = template (py_str PyNone) (py_str (Series_get r "operation"))
                         (py_str (Series_get r "addressingMode"))
                         (py_str (Series_get r "cycles")))
        /\ (~ In "operation" (columns df) ->
           line_of r = template (py_str (Series_get r "name")) (py_str PyNone)
                         (py_str (Series_get r "addressingMode"))
                         (py_str (Series_get r "cycles")))
        /\ (~ In "addressingMode" (columns df) ->
           line_of r = template (py_str (Series_get r "name"))
                         (py_str (Series_get r "operation")) (py_str PyNone)
                         (py_str (Series_get r "cycles")))
        /\ (~ In "cycles" (columns df) ->
           line_of r = template (py_str (Series_get r "name"))
                         (py_str (Series_get r "operation"))
                         (py_str (Series_get r "addressingMode")) (py_str PyNone))).
Proof.
  intros H. split; [|split].
  - apply (run_loaded read_csv fs df H).
  - intros key r Hr Hk. apply Series_get_absent.
    now rewrite (rows_have_columns df r Hr).
  - intros r Hr. pose proof (rows_have_columns df r Hr) as Hc.
    unfold line_of, fstring.
    repeat split; intros Hk; rewrite <- Hc in Hk;
      now rewrite (Series_get_absent r _ Hk).
Qed.

Lemma absent_column_absorbed_witness :
  plain_reader (disk (Content no_cycles_csv) input_path)
  = inr (mkFrame ["name"; "operation"; "addressingMode"]
                 [[PyStr "LDA"; PyStr "load_accumulator"; PyStr "immediate"]])
  /\ run plain_reader (disk (Content no_cycles_csv))
     = ("Instruction::new(" ++ dq ++ "LDA" ++ dq
        ++ ".to_string(),Some(Cpu::load_accumulator),Some(Cpu::immediate),None),"
        ++ nl, Finished).
Proof.
  split.
  - vm_compute. reflexivity.
  - refine (eq_trans
              (proj1 (absent_column_absorbed plain_reader
                        (disk (Content no_cycles_csv))
                        (mkFrame ["name"; "operation"; "addressingMode"]
                           [[PyStr "LDA"; PyStr "load_accumulator";
                             PyStr "immediate"]]) _)) _).
    + vm_compute. reflexivity.
    + vm_compute. reflexivity.
Defined.

(** ** C6: a load that fails *)

(** C6.  When the load raises, whatever it raises, the run prints nothing
    and ends with that exception uncaught: the script has read the file once
    and has written nothing by then. *)
Theorem load_failure_propagates (read_csv : file_state -> exn + DataFrame)
        (fs : string -> file_state) (e : exn) :
  read_csv (fs input_path) = inl e ->
  run read_csv fs = (EmptyString, Uncaught e)
  /\ main read_csv (boot fs)
     = (mkWorld fs [input_path] EmptyString EmptyString, inl e).
Proof.
  intros H. split.
  - apply (run_failed read_csv fs e H).
  - apply (main_failed read_csv (boot fs) e H).
Qed.

Lemma load_failure_propagates_witness :
  plain_reader (disk Absent input_path) = inl FileNotFoundError
  /\ run plain_reader (disk Absent) = (EmptyString, Uncaught FileNotFoundError).
Proof.
  split.
  - vm_compute. reflexivity.
  - refine (proj1 (load_failure_propagates plain_reader (disk Absent)
                     FileNotFoundError _)).
    vm_compute. reflexivity.
Defined.

(** ** C7: the same file, the same output *)

(** C7.  Two runs that find the same content under the script's path print
    the same text and end the same way, whatever else the two file systems
    hold. *)
Theorem run_deterministic (read_csv : file_state -> exn + DataFrame)
        (fs1 fs2 : string -> file_state) :
  fs1 input_path = fs2 input_path ->
  run read_csv fs1 = run read_csv fs2.
Proof.
  intros H. destruct (read_csv (fs2 input_path)) as [e|df] eqn:E.
  - rewrite (run_failed read_csv fs2 e E).
    apply run_failed. now rewrite H.
  - rewrite (run_loaded read_csv fs2 df E).
    apply run_loaded. now rewrite H.
Qed.

Lemma run_deterministic_witness :
  disk (Content lda_csv) input_path = disk_with_neighbour (Content lda_csv) input_path
  /\ run plain_reader (disk (Content lda_csv))
     = run plain_reader (disk_with_neighbour (Content lda_csv)).
Proof.
  split.
  - reflexivity.
  - apply (run_deterministic plain_reader (disk (Content lda_csv))
             (disk_with_neighbour (Content lda_csv))).
    reflexivity.
Defined.

(** ** C8: only the four columns count *)

Lemma line_of_four_values (r : Series) :
  line_of r = (let '(n, o, a, c) := four_values r in fstring n o a c).
Proof. reflexivity. Qed.

Lemma emitted_projection (df : DataFrame) :
  emitted df
  = map (fun q : pyobj * pyobj * pyobj * pyobj =>
           let '(n, o, a, c) := q in fstring n o a c) (projection df).
Proof.
  unfold emitted, projection. rewrite map_map.
  apply map_ext. intros r. apply line_of_four_values.
Qed.

(** A column more, under a label that is none of the four, leaves the
    table as the loop sees it unchanged. *)
Lemma extra_column_ignored (cs1 cs2 : list string) (x : string)
      (rows : list (list pyobj * pyobj * list pyobj)) :
  ~ In x ["name"; "operation"; "addressingMode"; "cycles"] ->
  Forall (fun row => length (fst (fst row)) = length cs1) rows ->
  projection (mkFrame (cs1 ++ x :: cs2)
                (map (fun row => fst (fst row) ++ snd (fst row) :: snd row)%list rows))
  = projection (mkFrame (cs1 ++ cs2)
                  (map (fun row => fst (fst row) ++ snd row)%list rows)).
Proof.
  intros Hx Hrows. unfold projection. rewrite !rows_of_frame. simpl.
  rewrite !map_map. apply map_ext_in. intros [[vs1 v] vs2] Hin.
  rewrite Forall_forall in Hrows. specialize (Hrows _ Hin). simpl in Hrows.
  unfold four_values. simpl fst. simpl snd.
  rewrite !(Series_get_insert cs1 cs2 vs1 vs2 x v); try exact Hrows;
    try reflexivity;
    intros E; apply Hx; rewrite <- E; simpl; tauto.
Qed.

(** The columns in another order, the labels being distinct, leave the
    table as the loop sees it unchanged. *)
Lemma column_order_ignored (df df' : DataFrame) :
  NoDup (columns df) ->
  Forall2 (fun vs vs' =>
             length (columns df) = length vs
             /\ length (columns df') = length vs'
             /\ Permutation (combine (columns df) vs) (combine (columns df') vs'))
          (values df) (values df') ->
  projection df = projection df'.
Proof.
  intros ND F. unfold projection. rewrite !rows_of_frame.
  induction F as [|vs vs' l l' [L [L' P]] F IH]; simpl.
  - reflexivity.
  - rewrite IH. f_equal. unfold four_values.
    now rewrite !(Series_get_permuted (columns df) (columns df') vs vs' _ ND L L' P).
Qed.

(** Two tables whose rows, taken in order, yield the same values under
    the four labels give the same run. *)
Lemma same_projection_same_run
      (read_csv : file_state -> exn + DataFrame)
      (fs1 fs2 : string -> file_state) (df1 df2 : DataFrame) :
  read_csv (fs1 input_path) = inr df1 ->
  read_csv (fs2 input_path) = inr df2 ->
  projection df1 = projection df2 ->
  run read_csv fs1 = run read_csv fs2.
Proof.
  intros H1 H2 P.
  rewrite (run_loaded read_csv fs1 df1 H1), (run_loaded read_csv fs2 df2 H2).
  now rewrite !emitted_projection, P.
Qed.

Example shuffled_prints_as_lda :
  run plain_reader (disk (Content shuffled_csv))
  = run plain_reader (disk (Content lda_csv)).
Proof.
  apply (same_projection_same_run plain_reader
           (disk (Content shuffled_csv)) (disk (Content lda_csv))
           (mkFrame ["cycles"; "opcode"; "name"; "addressingMode"; "operation"]
              [[PyInt 2; PyStr "A9"; PyStr "LDA"; PyStr "immediate";
                PyStr "load_accumulator"]])
           lda_frame).
  - vm_compute. reflexivity.
  - vm_compute. reflexivity.
  - vm_compute. reflexivity.
Qed.

(** *** From the table to its rows *)

Lemma all_some_map {A B C : Type} (F : A -> option B) (G : B -> C) (H : A -> C)
      (xs : list A) (ys : list B) :
  (forall x y, F x = Some y -> G y = H x) ->
  all_some (map F xs) = Some ys -> map G ys = map H xs.
Proof.
  intros E. revert ys. induction xs as [|x xs IH]; simpl; intros ys Hs.
  - injection Hs as <-. reflexivity.
  - destruct (F x) as [y|] eqn:Fx; [|discriminate Hs].
    destruct (all_some (map F xs)) as [ys'|]; simpl in Hs; [|discriminate Hs].
    injection Hs as <-. simpl. f_equal; [now apply E | now apply IH].
Qed.

(** A lookup by label in a row finds the cell of the first column with
    that label. *)
Lemma assoc_all_some (f : column -> option pyobj) (ls : list string)
      (cs : list column) (vs : list pyobj) (key : string) :
  all_some (map f cs) = Some vs ->
  assoc ls vs key = match lookup_column ls cs key with
                    | Some c => f c
                    | None => None
                    end.
Proof.
  revert cs vs. induction ls as [|l ls IH]; intros cs vs Hs.
  - now destruct vs.
  - destruct cs as [|c cs]; simpl in Hs.
    + injection Hs as <-. reflexivity.
    + destruct (f c) as [v|] eqn:Fc; [|discriminate Hs].
      destruct (all_some (map f cs)) as [vs'|] eqn:R; simpl in Hs; [|discriminate Hs].
      injection Hs as <-. simpl.
      destruct (String.eqb l key); [now rewrite Fc | now apply IH].
Qed.

Lemma Series_get_row (t : Table) (i : nat) (vs : list pyobj) (key : string) :
  all_some (map (fun c => row_cell (upcasts t) c i) (table_columns t)) = Some vs ->
  Series_get (mkSeries (labels t) vs) key = cell_under (upcasts t) t i key.
Proof.
  intros Hs. unfold Series_get, Series_get_default, cell_under, column_under.
  now rewrite getitem_assoc, (assoc_all_some _ (labels t) _ vs key Hs).
Qed.

(** The table as the loop sees it, from the columns of the table. *)
Lemma projection_of_table (t : Table) (df : DataFrame) :
  frame_of_table t = Some df ->
  projection df
  = map (fun i => (cell_under (upcasts t) t i "name",
                   cell_under (upcasts t) t i "operation",
                   cell_under (upcasts t) t i "addressingMode",
                   cell_under (upcasts t) t i "cycles"))
        (seq 0 (nrows t)).
Proof.
  unfold frame_of_table. intros Hf.
  destruct (all_some
              (map (fun i => all_some (map (fun c => row_cell (upcasts t) c i)
                                           (table_columns t)))
                   (seq 0 (nrows t)))) as [rows|] eqn:R;
    simpl in Hf; [|discriminate Hf].
  injection Hf as <-. unfold projection. rewrite rows_of_frame. simpl.
  rewrite map_map.
  refine (all_some_map _ _ _ _ _ _ R).
  intros i vs Hs. unfold four_values.
  now rewrite !(Series_get_row t i vs _ Hs).
Qed.

(** A table that holds an integer column beside a float column hands out
    the integer as a float: the file with the one column [cycles] prints
    [2], the file with the same column and a column of fractions beside
    it prints [2.0], though the two agree in their row and in what they
    hold under each of the four labels. *)
Lemma float_column_changes_cycles : ~ four_columns_decide.
Proof.
  intros H.
  specialize (H cycles_only_csv cycles_and_float_csv
                (mkTable ["cycles"] 1 [IntColumn [2%Z]])
                (mkTable ["cycles"; "x"] 1 [IntColumn [2%Z]; FloatColumn ["0.5"]])).
  assert (R1 : read_table_plain (Content cycles_only_csv)
               = Some (inr (mkTable ["cycles"] 1 [IntColumn [2%Z]])))
    by (vm_compute; reflexivity).
  assert (R2 : read_table_plain (Content cycles_and_float_csv)
               = Some (inr (mkTable ["cycles"; "x"] 1
                              [IntColumn [2%Z]; FloatColumn ["0.5"]])))
    by (vm_compute; reflexivity).
  specialize (H R1 R2 eq_refl eq_refl).
  vm_compute in H. discriminate H.
Qed.

Lemma typed_reader_table (text : string) (t : Table) (df : DataFrame) :
  read_table_plain (Content text) = Some (inr t) ->
  frame_of_table t = Some df ->
  typed_reader (disk (Content text) input_path) = inr df.
Proof.
  intros R F. change (disk (Content text) input_path) with (Content text).
  unfold typed_reader. now rewrite R, F.
Qed.

(** C8.  Two tables with as many rows, the same columns under the four
    labels [name], [operation], [addressingMode] and [cycles], and the same
    answer to whether their rows carry integers as floats, give the same
    run, the same text and the same end: under any reader that returns
    them, and so for any two plain files that the reader written out for
    decimals loads as these tables.  Nothing else of a table enters the
    statement, neither further columns nor the order of the columns. *)
Theorem output_depends_on_four_columns (t1 t2 : Table) (df1 df2 : DataFrame) :
  frame_of_table t1 = Some df1 ->
  frame_of_table t2 = Some df2 ->
  nrows t1 = nrows t2 ->
  map (column_under t1) four_labels = map (column_under t2) four_labels ->
  upcasts t1 = upcasts t2 ->
  (forall (read_csv : file_state -> exn + DataFrame) (fs1 fs2 : string -> file_state),
      read_csv (fs1 input_path) = inr df1 ->
      read_csv (fs2 input_path) = inr df2 ->
      run read_csv fs1 = run read_csv fs2)
  /\ (forall text1 text2 : string,
         read_table_plain (Content text1) = Some (inr t1) ->
         read_table_plain (Content text2) = Some (inr t2) ->
         run typed_reader (disk (Content text1))
         = run typed_reader (disk (Content text2))).
Proof.
  intros F1 F2 N C U.
  assert (P : projection df1 = projection df2).
  { rewrite (projection_of_table t1 df1 F1), (projection_of_table t2 df2 F2).
    rewrite N, U. apply map_ext. intros i.
    unfold cell_under. simpl in C.
    injection C as Cn Co Ca Cc. now rewrite Cn, Co, Ca, Cc. }
  split.
  - intros read_csv fs1 fs2 H1 H2.
    exact (same_projection_same_run read_csv fs1 fs2 df1 df2 H1 H2 P).
  - intros text1 text2 R1 R2.
    exact (same_projection_same_run typed_reader _ _ df1 df2
             (typed_reader_table text1 t1 df1 R1 F1)
             (typed_reader_table text2 t2 df2 R2 F2) P).
Qed.

Lemma output_depends_on_four_columns_witness :
  run typed_reader (disk (Content shuffled_csv))
  = run typed_reader (disk (Content lda_csv)).
Proof.
  refine (proj2 (output_depends_on_four_columns
                   (mkTable ["cycles"; "opcode"; "name"; "addressingMode"; "operation"]
                      1
                      [IntColumn [2%Z]; ObjectColumn [PyStr "A9"];
                       ObjectColumn [PyStr "LDA"]; ObjectColumn [PyStr "immediate"];
                       ObjectColumn [PyStr "load_accumulator"]])
                   (mkTable ["name"; "operation"; "addressingMode"; "cycles"] 1
                      [ObjectColumn [PyStr "LDA"];
                       ObjectColumn [PyStr "load_accumulator"];
                       ObjectColumn [PyStr "immediate"]; IntColumn [2%Z]])
                   (mkFrame ["cycles"; "opcode"; "name"; "addressingMode"; "operation"]
                      [[PyInt 2; PyStr "A9"; PyStr "LDA"; PyStr "immediate";
                        PyStr "load_accumulator"]])
                   lda_frame _ _ _ _ _) shuffled_csv lda_csv _ _).
  - vm_compute. reflexivity.
  - vm_compute. reflexivity.
  - reflexivity.
  - vm_compute. reflexivity.
  - vm_compute. reflexivity.
  - vm_compute. reflexivity.
  - vm_compute. reflexivity.
Defined.

(** ** C9: what the script touches *)


(** ** C10: the marker is the text None *)



(** * Further properties of the loop *)

(** ** Helpers on texts *)

Lemma append_cancel_l (p a b : string) : p ++ a = p ++ b -> a = b.
Proof.
  induction p as [|c p IH]; simpl; intros H; [exact H|].
  apply IH. now injection H.
Qed.

(** Two texts free of a character, each followed by that character, agree
    as soon as the whole texts agree. *)
Lemma split_at_first (d : ascii) (s s' t t' : string) :
  free_of d s = true -> free_of d s' = true ->
  s ++ String d t = s' ++ String d t' -> s = s' /\ t = t'.
Proof.
  revert s'. induction s as [|c s IH]; intros [|c' s'] F F' H; simpl in *.
  - injection H as H. now split.
  - injection H as Hc H. subst c'.
    rewrite Ascii.eqb_refl in F'. discriminate F'.
  - injection H as Hc H. subst c.
    rewrite Ascii.eqb_refl in F. discriminate F.
  - injection H as Hc H. subst c'.
    apply andb_prop in F. apply andb_prop in F'.
    destruct (IH s' (proj2 F) (proj2 F') H) as [-> ->]. now split.
Qed.

Lemma string_length_app (a b : string) :
  String.length (a ++ b) = String.length a + String.length b.
Proof. induction a as [|c a IH]; simpl; [reflexivity | now rewrite IH]. Qed.

Lemma unlines_ends_with_newline (ls : list string) :
  ls <> [] -> exists s, unlines ls = s ++ nl.
Proof.
  induction ls as [|l ls IH]; intros N; [contradiction|].
  destruct ls as [|l' ls].
  - exists l. reflexivity.
  - destruct IH as [s Hs]; [discriminate|].
    exists (l ++ nl ++ s). cbn [unlines] in *. rewrite Hs.
    now rewrite !append_assoc.
Qed.

Lemma emitted_frame (cols : list string) (vs : list (list pyobj)) :
  emitted (mkFrame cols vs) = map line_of (map (mkSeries cols) vs).
Proof. unfold emitted. now rewrite rows_of_frame. Qed.

(** ** The line read back *)

(** X1.  Where the printed name holds no double quote and the other three
    printed values hold no closing parenthesis, the line gives the four
    printed values back: two such rows with the same line agree on the text
    of each of the four fields. *)
Theorem line_read_back (r r' : Series) :
  delimiter_free r = true -> delimiter_free r' = true ->
  line_of r = line_of r' ->
  py_str (Series_get r "name") = py_str (Series_get r' "name")
  /\ py_str (Series_get r "operation") = py_str (Series_get r' "operation")
  /\ py_str (Series_get r "addressingMode") = py_str (Series_get r' "addressingMode")
  /\ py_str (Series_get r "cycles") = py_str (Series_get r' "cycles").
Proof.
  unfold delimiter_free, line_of, fstring, template.
  generalize (py_str (Series_get r "name")) (py_str (Series_get r "operation"))
             (py_str (Series_get r "addressingMode")) (py_str (Series_get r "cycles"))
             (py_str (Series_get r' "name")) (py_str (Series_get r' "operation"))
             (py_str (Series_get r' "addressingMode")) (py_str (Series_get r' "cycles")).
  intros n o a c n' o' a' c' F F' H.
  apply andb_prop in F. destruct F as [F Fc].
  apply andb_prop in F. destruct F as [F Fa].
  apply andb_prop in F. destruct F as [Fn Fo].
  apply andb_prop in F'. destruct F' as [F' Fc'].
  apply andb_prop in F'. destruct F' as [F' Fa'].
  apply andb_prop in F'. destruct F' as [Fn' Fo'].
  apply append_cancel_l in H. apply append_cancel_l in H.
  destruct (split_at_first DQUOTE n n' _ _ Fn Fn' H) as [En H1].
  apply append_cancel_l in H1.
  destruct (split_at_first RPAREN o o' _ _ Fo Fo' H1) as [Eo H2].
  apply (append_cancel_l ",Some(Cpu::") in H2.
  destruct (split_at_first RPAREN a a' _ _ Fa Fa' H2) as [Ea H3].
  apply (append_cancel_l ",") in H3.
  destruct (split_at_first RPAREN c c' _ _ Fc Fc' H3) as [Ec _].
  now repeat split.
Qed.

Lemma line_read_back_witness :
  py_str (Series_get (mkSeries ["name"; "operation"; "addressingMode"; "cycles"]
                        [PyStr "LDA"; PyStr "load_accumulator"; PyStr "immediate";
                         PyInt 2]) "cycles")
  = py_str (Series_get (mkSeries ["cycles"; "name"; "operation"; "addressingMode"]
                          [PyStr "2"; PyStr "LDA"; PyStr "load_accumulator";
                           PyStr "immediate"]) "cycles").
Proof.
  refine (proj2 (proj2 (proj2
            (line_read_back
               (mkSeries ["name"; "operation"; "addressingMode"; "cycles"]
                  [PyStr "LDA"; PyStr "load_accumulator"; PyStr "immediate"; PyInt 2])
               (mkSeries ["cycles"; "name"; "operation"; "addressingMode"]
                  [PyStr "2"; PyStr "LDA"; PyStr "load_accumulator";
                   PyStr "immediate"]) _ _ _)))).
  - vm_compute. reflexivity.
  - vm_compute. reflexivity.
  - vm_compute. reflexivity.
Defined.

(** ** No escaping *)

(** X2.  Text values go into the line as they are, so the line does not
    separate the fields by itself: a row whose operation reads
    [o),Some(Cpu::x] and whose addressing mode reads [a] prints the same
    line as the row with the operation [o] and the addressing mode
    [x),Some(Cpu::a], whatever [o], [x] and [a] are, though the two
    operations differ. *)
Theorem fields_not_separated (n o x a : string) (c : pyobj) :
  line_of (mkSeries ["name"; "operation"; "addressingMode"; "cycles"]
             [PyStr n; PyStr (o ++ "),Some(Cpu::" ++ x); PyStr a; c])
  = line_of (mkSeries ["name"; "operation"; "addressingMode"; "cycles"]
               [PyStr n; PyStr o; PyStr (x ++ "),Some(Cpu::" ++ a); c])
  /\ o ++ "),Some(Cpu::" ++ x <> o.
Proof.
  split.
  - unfold line_of, fstring, template. cbn [Series_get Series_get_default getitem
      get_loc index data String.eqb Ascii.eqb Bool.eqb option_map nth_error py_str].
    simpl. do 19 f_equal. rewrite !append_assoc. reflexivity.
  - intros E. assert (L : String.length (o ++ "),Some(Cpu::" ++ x) = String.length o)
      by now rewrite E.
    rewrite string_length_app in L. simpl in L. lia.
Qed.

(** ** An absent column and the text None *)

Lemma assoc_appended (cs : list string) (vs : list pyobj) (key : string) (v : pyobj) :
  length vs = length cs -> ~ In key cs ->
  assoc (cs ++ [key]) (vs ++ [v]) key = Some v.
Proof.
  revert vs. induction cs as [|k cs IH]; intros [|v1 vs] L N; simpl in *;
    try discriminate.
  - now rewrite String.eqb_refl.
  - destruct (String.eqb_spec k key) as [E|E].
    + exfalso. apply N. now left.
    + apply IH; [now injection L | intros Hin; apply N; now right].
Qed.

(** X3.  The line does not tell an absent column from a column that holds
    the text [None]: a row and the same row with one more column, under a
    label it did not have and holding that text, print the same line. *)
Theorem absent_column_prints_as_text_None
        (cs : list string) (vs : list pyobj) (key : string) :
  length vs = length cs -> ~ In key cs ->
  line_of (mkSeries (cs ++ [key]) (vs ++ [PyStr "None"]))
  = line_of (mkSeries cs vs).
Proof.
  intros L N.
  assert (G : forall q,
             py_str (Series_get (mkSeries (cs ++ [key]) (vs ++ [PyStr "None"])) q)
             = py_str (Series_get (mkSeries cs vs) q)).
  { intros q. destruct (String.eqb_spec key q) as [E|E].
    - subst q.
      rewrite (Series_get_absent (mkSeries cs vs) key N).
      unfold Series_get, Series_get_default.
      now rewrite getitem_assoc, (assoc_appended cs vs key _ L N).
    - rewrite (Series_get_insert cs [] vs [] key (PyStr "None") q L);
        [|congruence].
      now rewrite !app_nil_r. }
  unfold line_of, fstring. now rewrite !G.
Qed.

Lemma absent_column_prints_as_text_None_witness :
  line_of (mkSeries ["name"; "operation"; "addressingMode"; "cycles"]
             [PyStr "LDA"; PyStr "load_accumulator"; PyStr "immediate"; PyStr "None"])
  = line_of (mkSeries ["name"; "operation"; "addressingMode"]
               [PyStr "LDA"; PyStr "load_accumulator"; PyStr "immediate"]).
Proof.
  apply (absent_column_prints_as_text_None
           ["name"; "operation"; "addressingMode"]
           [PyStr "LDA"; PyStr "load_accumulator"; PyStr "immediate"] "cycles").
  - reflexivity.
  - simpl. intros [H|[H|[H|[]]]]; discriminate H.
Defined.

(** ** Lines of output and newlines in values *)

(** X4.  The lines of what the loop prints, starting from an empty output,
    are as many as the rows and the newlines that the printed values of the
    rows hold, taken together: every newline inside a value adds a line. *)
Theorem output_line_count (df : DataFrame) (fs : string -> file_state) :
  length (lines (stdout (fst (emit df (boot fs)))))
  = length (values df) + list_sum (map newlines_in (rows_of df)).
Proof.
  rewrite emit_spec. simpl. rewrite lines_count_unlines, emitted_length.
  f_equal. unfold emitted. rewrite map_map. f_equal.
  apply map_ext. intros r. unfold line_of, fstring.
  apply count_lf_template.
Qed.

(** ** Tables put end to end *)

(** X5.  The loop carries nothing from one row to the next: printing a
    table whose rows are those of one table followed by those of another,
    under the same columns, is printing the first and then the second. *)
Theorem emit_append (cols : list string) (vs1 vs2 : list (list pyobj)) (w : world) :
  emit (mkFrame cols (vs1 ++ vs2)) w
  = (_ <- emit (mkFrame cols vs1) ;; emit (mkFrame cols vs2)) w.
Proof.
  unfold bind. rewrite !emit_spec. simpl.
  rewrite !emitted_frame, !map_app, unlines_app.
  now rewrite append_assoc.
Qed.

(** ** The empty output *)

(** X6.  When the table loads, the run prints nothing exactly when the
    table has no row, and what it prints otherwise ends with a newline. *)
Theorem output_empty_iff_no_row (read_csv : file_state -> exn + DataFrame)
        (fs : string -> file_state) (df : DataFrame) :
  read_csv (fs input_path) = inr df ->
  (fst (run read_csv fs) = EmptyString <-> values df = [])
  /\ (values df <> [] -> exists s, fst (run read_csv fs) = s ++ nl).
Proof.
  intros H. rewrite (run_loaded read_csv fs df H). simpl fst.
  destruct df as [cols vs]. rewrite emitted_frame. simpl values.
  split; [split|].
  - destruct vs as [|v vs]; [reflexivity|]. simpl. intros E. discriminate E.
  - intros ->. reflexivity.
  - intros N. apply unlines_ends_with_newline.
    destruct vs; [contradiction | discriminate].
Qed.

Lemma output_empty_iff_no_row_witness :
  plain_reader (disk (Content header_only_csv) input_path)
  = inr (mkFrame ["name"; "operation"; "addressingMode"; "cycles"] [])
  /\ fst (run plain_reader (disk (Content header_only_csv))) = EmptyString.
Proof.
  split.
  - vm_compute. reflexivity.
  - refine (proj2 (proj1 (output_empty_iff_no_row plain_reader
                            (disk (Content header_only_csv))
                            (mkFrame ["name"; "operation"; "addressingMode"; "cycles"] [])
                            _)) _).
    + vm_compute. reflexivity.
    + reflexivity.
Defined.

(** ** Columns in another order *)

(** X7.  The line of a row does not depend on where its columns stand:
    two rows with distinct labels that pair the same labels with the same
    values, in whatever order, print the same line. *)
Theorem line_of_permuted (cs cs' : list string) (vs vs' : list pyobj) :
  NoDup cs -> length cs = length vs -> length cs' = length vs' ->
  Permutation (combine cs vs) (combine cs' vs') ->
  line_of (mkSeries cs vs) = line_of (mkSeries cs' vs').
Proof.
  intros ND L L' P. unfold line_of.
  now rewrite !(Series_get_permuted cs cs' vs vs' _ ND L L' P).
Qed.

Lemma line_of_permuted_witness :
  line_of (mkSeries ["name"; "cycles"] [PyStr "LDA"; PyInt 2])
  = line_of (mkSeries ["cycles"; "name"] [PyInt 2; PyStr "LDA"]).
Proof.
  apply (line_of_permuted ["name"; "cycles"] ["cycles"; "name"]
           [PyStr "LDA"; PyInt 2] [PyInt 2; PyStr "LDA"]).
  - repeat constructor; simpl; intros H; repeat destruct H as [H|H];
      try discriminate H; try contradiction.
  - reflexivity.
  - reflexivity.
  - simpl. apply perm_swap.
Defined.
